(** * INA226 current-sensor service: a shallow embedding of [src/main.go]

    The driver talks to the chip through [i2c.Dev.Tx]; every transaction is
    appended, with the bus's answer, to a transaction log.  The bus is an
    oracle [bus : nat -> Tx -> Resp] that answers the [n]-th transaction of
    the process.  Go's [float64] arithmetic is modelled by exact rationals
    ([Q]); all the conversions of the driver are single multiplications. *)

From Stdlib Require Import ZArith QArith Qround List String Lia.
Import ListNotations.
Open Scope Z_scope.

(** ** Constants (main.go lines 18-37) *)

Definition ina226Address : Z := 0x40.

Definition configReg : Z := 0x00.
Definition shuntVoltReg : Z := 0x01.
Definition busVoltReg : Z := 0x02.
Definition powerReg : Z := 0x03.
Definition currentReg : Z := 0x04.
Definition calibrationReg : Z := 0x05.

Definition configValue : Z := 0x4127.

(** [busVoltageConversion = 1.25 / 1000.0], [currentLSB = 0.001],
    [powerLSB = 25.0 * 0.001]. *)
Definition busVoltageConversion : Q := ((125 # 100) / (1000 # 1))%Q.
Definition currentLSB : Q := 1 # 1000.
Definition powerLSB : Q := ((25 # 1) * (1 # 1000))%Q.

(** ** Errors and results *)

(** [BusIOError] is the error of the transport, [ConfigError] the error of
    [configuration.GetFloat]; [Wrapped msg e] is [fmt.Errorf("msg: %v", e)]
    and [Msg msg] is [fmt.Errorf("msg")]. *)
Inductive err :=
| BusIOError (code : Z)
| ConfigError
| Wrapped (msg : string) (inner : err)
| Msg (msg : string).

Inductive res (A : Type) :=
| Ok (a : A)
| Err (e : err).
Arguments Ok {A} a.
Arguments Err {A} e.

(** ** The bus *)

(** One call of [dev.Tx(w, r)]: the device address, the bytes written and
    the length of the read buffer ([r = nil] is length 0). *)
Record Tx := mkTx { tx_addr : Z; tx_w : list Z; tx_rlen : nat }.

(** The bus's answer to a transaction: success with the bytes it delivers,
    or a transport failure. *)
Inductive Resp :=
| Ack (data : list Z)
| Nack (code : Z).

(** A Go event the polling loop produces (log lines and sleeps). *)
Record CurrentSensorOutput := mkOutput {
  SupplyVoltage : Q;
  CurrentAmps : Q;
  PowerWatts : Q
}.

Inductive Event :=
| Sleep (ns : Z)
| LogError (e : err)
| LogReading (out : CurrentSensorOutput).

(** The world the program runs in: the bus transactions issued so far with
    their answers, the log/sleep trace, and how many times
    [configuration.GetFloat] has been called. *)
Record World := mkWorld {
  w_log : list (Tx * Resp);
  w_trace : list Event;
  w_fetches : nat
}.

(** State and error monad over the world. *)
Definition M (A : Type) := World -> res A * World.

Definition ret {A} (a : A) : M A := fun w => (Ok a, w).

Definition bind {A B} (m : M A) (k : A -> M B) : M B :=
  fun w => match m w with
           | (Ok a, w') => k a w'
           | (Err e, w') => (Err e, w')
           end.

Notation "x <- m ;; k" := (bind m (fun x => k))
  (at level 61, m at next level, right associativity).

(** [if err != nil { return ..., fmt.Errorf("msg: %v", err) }] *)
Definition wrap_err {A} (msg : string) (m : M A) : M A :=
  fun w => match m w with
           | (Err e, w') => (Err (Wrapped msg e), w')
           | r => r
           end.

Record Dev := mkDev { dev_addr : Z }.

Record INA226 := mkINA226 { dev : Dev }.

Section Driver.

(** The bus oracle: the answer to the [n]-th transaction of the process. *)
Variable bus : nat -> Tx -> Resp.

(** A Go [byte]: the low 8 bits. *)
Definition byte_of (z : Z) : Z := z mod 256.

(** The read buffer [make([]byte, n)] after the bus filled it. *)
Definition fill (n : nat) (data : list Z) : list Z :=
  map (fun i => byte_of (nth i data 0)) (seq 0 n).

(** [dev.Tx(w, r)] with [len(r) = rlen]: returns the read buffer. *)
Definition devTx (d : Dev) (wbytes : list Z) (rlen : nat) : M (list Z) :=
  fun w =>
    let t := mkTx (dev_addr d) wbytes rlen in
    let r := bus (List.length (w_log w)) t in
    let w' := mkWorld (w_log w ++ [(t, r)]) (w_trace w) (w_fetches w) in
    match r with
    | Ack data => (Ok (fill rlen data), w')
    | Nack code => (Err (BusIOError code), w')
    end.

(** main.go lines 71-75. *)
Definition writeRegister (ina : INA226) (reg value : Z) : M unit :=
  let data := [byte_of reg; byte_of (Z.shiftr value 8); byte_of (Z.land value 0xFF)] in
  _ <- devTx (dev ina) data 0 ;; ret tt.

(** [uint16(data[0])<<8 | uint16(data[1])] *)
Definition be16 (b0 b1 : Z) : Z :=
  Z.lor ((Z.shiftl b0 8) mod 2 ^ 16) b1.

(** main.go lines 77-91. *)
Definition readRegister (ina : INA226) (reg : Z) : M Z :=
  _ <- devTx (dev ina) [byte_of reg] 0 ;;
  data <- devTx (dev ina) [] 2 ;;
  ret (be16 (nth 0 data 0) (nth 1 data 0)).

(** [int16(raw)] for a [uint16] raw value: two's-complement reinterpretation. *)
Definition int16_of (raw : Z) : Z :=
  let r := raw mod 2 ^ 16 in
  if Z.testbit r 15 then r - 2 ^ 16 else r.

Definition bus_voltage_of_raw (raw : Z) : Q := (inject_Z raw * busVoltageConversion)%Q.
Definition current_of_raw (raw : Z) : Q := (inject_Z (int16_of raw) * currentLSB)%Q.
Definition power_of_raw (raw : Z) : Q := (inject_Z raw * powerLSB)%Q.

(** main.go lines 93-117. *)
Definition ReadBusVoltage (ina : INA226) : M Q :=
  raw <- readRegister ina busVoltReg ;; ret (bus_voltage_of_raw raw).

Definition ReadCurrent (ina : INA226) : M Q :=
  raw <- readRegister ina currentReg ;; ret (current_of_raw raw).

Definition ReadPower (ina : INA226) : M Q :=
  raw <- readRegister ina powerReg ;; ret (power_of_raw raw).

(** main.go lines 125-149. *)
Definition ReadSensorData (ina : INA226) : M CurrentSensorOutput :=
  voltage <- wrap_err "failed to read bus voltage" (ReadBusVoltage ina) ;;
  current <- wrap_err "failed to read current" (ReadCurrent ina) ;;
  power <- wrap_err "failed to read power" (ReadPower ina) ;;
  ret (mkOutput voltage current power).

(** main.go lines 56-69. *)
Definition initialize (ina : INA226) : M unit :=
  _ <- writeRegister ina configReg configValue ;;
  writeRegister ina calibrationReg 2560.

(** main.go lines 43-54: [nil, err] on failure. *)
Definition NewINA226 : M INA226 :=
  let ina := mkINA226 (mkDev ina226Address) in
  _ <- wrap_err "failed to initialize INA226" (initialize ina) ;;
  ret ina.

End Driver.

(** ** The polling scheduler (main.go lines 151-224) *)

(** Go's conversion of a [float64] to an integer type ([time.Duration]):
    truncation toward zero. *)
Definition trunc_Q (x : Q) : Z :=
  if Qle_bool 0 x then Qfloor x else - Qfloor (- x)%Q.

(** [time.Second] in nanoseconds. *)
Definition second_ns : Z := 1000000000.

Definition min_int64 : Z := - 2 ^ 63.
Definition max_int64 : Z := 2 ^ 63 - 1.

(** [time.Duration(x)] for a finite [float64] [x]: [time.Duration] is an
    [int64]; a value whose truncation does not fit is implementation
    dependent in Go, and on amd64 ([CVTTSD2SI]) it is [MinInt64]. *)
Definition to_duration (x : Q) : Z :=
  let t := trunc_Q x in
  if (min_int64 <=? t) && (t <=? max_int64) then t else min_int64.

(** [sleepSeconds := 1.0 / updateFrequency]
    [time.Duration(sleepSeconds * float64(time.Second))] (main.go 190-191).
    For [updateFrequency = 0] Go's [1.0 / 0] is [+Inf], whose conversion to
    [int64] is out of range as well ([MinInt64] on amd64). *)
Definition sleepSeconds (updateFrequency : Q) : Q := ((1 # 1) / updateFrequency)%Q.

Definition sleep_duration (updateFrequency : Q) : Z :=
  if Qeq_bool updateFrequency 0 then min_int64
  else to_duration (sleepSeconds updateFrequency * inject_Z second_ns)%Q.

(** How a run of the program ends: still running when the bound on the
    number of ticks is reached, returned from [run] with an error, or
    crashed by a Go runtime panic. *)
Inductive Outcome :=
| Running (w : World)
| Returned (e : err) (w : World)
| Panicked (w : World).

Definition outcome_world (o : Outcome) : World :=
  match o with Running w | Returned _ w | Panicked w => w end.

Definition emit (w : World) (ev : Event) : World :=
  mkWorld (w_log w) (w_trace w ++ [ev]) (w_fetches w).

Section Scheduler.

Variable bus : nat -> Tx -> Resp.

(** The configuration source: the answer of the [n]-th call of
    [configuration.GetFloat("updates-per-second")]; [None] is a
    [ConfigError].  Indexing by the call number lets the value change
    between calls (live edits of the configuration). *)
Variable config : nat -> option Q.

Definition GetFloat (w : World) : option Q * World :=
  (config (w_fetches w), mkWorld (w_log w) (w_trace w) (S (w_fetches w))).

(** The [for] loop of [run], bounded by [fuel] ticks.  [ina = None] is the
    nil [*INA226] that [NewINA226] returns on failure: the first register
    read dereferences [ina.dev] and panics.  After a failed
    [ReadSensorData] the loop logs the error and goes on to the log line
    that reads [data.CurrentAmps] with [data == nil]: a nil dereference. *)
Fixpoint loop (fuel : nat) (ina : option INA226) (w : World) : Outcome :=
  match fuel with
  | O => Running w
  | S fuel' =>
      let '(uf, w1) := GetFloat w in
      match uf with
      | None => Returned (Wrapped "unable to read configuration" ConfigError) w1
      | Some updateFrequency =>
          let w2 := emit w1 (Sleep (sleep_duration updateFrequency)) in
          match ina with
          | None => Panicked w2
          | Some d =>
              match ReadSensorData bus d w2 with
              | (Err e, w3) => Panicked (emit w3 (LogError (Wrapped "Failed to read sensor data" e)))
              | (Ok data, w3) => loop fuel' ina (emit w3 (LogReading data))
              end
          end
      end
  end.

(** [run] (main.go 151-224).  [configuration_present] is
    [configuration != nil] and [stream_present] is [writeStream != nil];
    [host.Init] and [i2creg.Open("5")] are taken to succeed, the opened bus
    being the oracle [bus].  A failed [NewINA226] is only logged. *)
Definition run (configuration_present stream_present : bool) (fuel : nat) (w : World)
  : Outcome :=
  if negb configuration_present then Returned (Msg "configuration cannot be accessed") w
  else if negb stream_present then Returned (Msg "failed to create write stream 'energy'") w
  else match NewINA226 bus w with
       | (Ok ina, w1) => loop fuel (Some ina) w1
       | (Err e, w1) => loop fuel None (emit w1 (LogError e))
       end.

End Scheduler.

(** ** Sleep computation and its divisor *)

(** Division that reports a zero divisor ([None]). *)
Definition div_checked (a b : Q) : option Q :=
  if Qeq_bool b 0 then None else Some (a / b)%Q.

(** main.go line 190-191: the only division is [1.0 / updateFrequency]. *)
Definition sleep_ns_main (updateFrequency : Q) : option Z :=
  match div_checked (1 # 1) updateFrequency with
  | Some s => Some (to_duration (s * inject_Z second_ns)%Q)
  | None => None
  end.

(** The other variant of the loop (src/unnamed/part_000 line 181):
    [(1.0 * time.Second) / time.Duration(updateFrequency)], an integer
    division whose divisor is the truncated frequency; Go panics on a zero
    divisor ([None]). *)
Definition sleep_ns_part000 (updateFrequency : Q) : option Z :=
  let d := to_duration updateFrequency in
  if Z.eqb d 0 then None else Some (Z.quot second_ns d).

(** ** Concrete inputs and observations *)

Definition ina0 : INA226 := mkINA226 (mkDev ina226Address).
Definition w0 : World := mkWorld [] [] 0.

(** ** ReadSensorData: transactions and outcome *)

Definition reg_read_txs (ina : INA226) (reg : Z) : list Tx :=
  [mkTx (dev_addr (dev ina)) [byte_of reg] 0; mkTx (dev_addr (dev ina)) [] 2].

(** The transactions of a complete [ReadSensorData]: bus voltage, then
    current, then power. *)
Definition sensor_txs (ina : INA226) : list Tx :=
  reg_read_txs ina busVoltReg ++ reg_read_txs ina currentReg ++ reg_read_txs ina powerReg.

(** The message [ReadSensorData] wraps the error of its [i]-th read with. *)
Definition quantity_msg (i : nat) : string :=
  nth i ["failed to read bus voltage"; "failed to read current"; "failed to read power"]%string
    EmptyString.

Definition acked (p : Tx * Resp) : Prop :=
  match snd p with Ack _ => True | Nack _ => False end.

(** The raw register value that the [i]-th logged transaction delivered. *)
Definition raw_at (new : list (Tx * Resp)) (i : nat) : Z :=
  match nth_error new i with
  | Some (_, Ack d) => be16 (byte_of (nth 0 d 0)) (byte_of (nth 1 d 0))
  | _ => 0
  end.

(** The sleep durations of a trace, in order. *)
Fixpoint sleeps (tr : list Event) : list Z :=
  match tr with
  | [] => []
  | Sleep ns :: tr' => ns :: sleeps tr'
  | _ :: tr' => sleeps tr'
  end.

(** The world in which a tick samples, after fetching [f] and sleeping. *)
Definition after_sleep (w : World) (f : Q) : World :=
  emit (mkWorld (w_log w) (w_trace w) (S (w_fetches w))) (Sleep (sleep_duration f)).

Definition cfg5 (n : nat) : option Q := Some (5 # 1).

(** Acknowledges the two initialization writes, then fails every transaction. *)
Definition bus_fails_after_init (n : nat) (t : Tx) : Resp :=
  if Nat.ltb n 2 then Ack [] else Nack 7.

(** The configuration-register write of [initialize]. *)
Definition config_write_tx : Tx := mkTx ina226Address [0x00; 0x41; 0x27] 0.

(** The calibration-register write of [initialize]: 2560 = 0x0A00. *)
Definition cal_write_tx : Tx := mkTx ina226Address [0x05; 0x0A; 0x00] 0.

(** ** The loop of the other variant (src/unnamed/part_000 lines 180-198) *)

Section Part000.

Variable bus : nat -> Tx -> Resp.

(** [configuration.GetFloat] with Go's two results: the value, and whether
    an error was returned. *)
Variable config_go : nat -> Q * bool.

Definition GetFloat_go (w : World) : (Q * bool) * World :=
  (config_go (w_fetches w), mkWorld (w_log w) (w_trace w) (S (w_fetches w))).

(** Sleep by [(1.0 * time.Second) / time.Duration(updateFrequency)] (a
    zero divisor panics), refetch the frequency and return when the fetch
    did NOT fail ([err == nil]), then sample; a failed sample is logged and
    [data.SupplyVoltage] is read from the nil reading. *)
Fixpoint loop_part000 (fuel : nat) (updateFrequency : Q) (ina : option INA226) (w : World)
  : Outcome :=
  match fuel with
  | O => Running w
  | S fuel' =>
      match sleep_ns_part000 updateFrequency with
      | None => Panicked w
      | Some ns =>
          let '((uf, failed), w2) := GetFloat_go (emit w (Sleep ns)) in
          if negb failed then Returned (Msg "unable to read configuration") w2
          else match ina with
               | None => Panicked w2
               | Some d =>
                   match ReadSensorData bus d w2 with
                   | (Err e, w3) =>
                       Panicked (emit w3 (LogError (Wrapped "Failed to read sensor data" e)))
                   | (Ok data, w3) => loop_part000 fuel' uf ina (emit w3 (LogReading data))
                   end
               end
      end
  end.

End Part000.

(** ** Helper lemmas *)

Lemma fst_bind_ret {A B} (m : M A) (g : A -> B) (w : World) :
  fst ((x <- m ;; ret (g x)) w) =
  match fst (m w) with Ok a => Ok (g a) | Err e => Err e end.
Proof.
  unfold bind, ret. destruct (m w) as [[a|e] w']; reflexivity.
Qed.

Lemma byte_of_small (z : Z) : 0 <= z < 256 -> byte_of z = z.
Proof. intros H. unfold byte_of. apply Z.mod_small. exact H. Qed.

Lemma testbit15_small (v : Z) :
  0 <= v < 65536 -> Z.testbit v 15 = (0x8000 <=? v).
Proof.
  intros Hv.
  assert (Hs := Z.testbit_spec' v 15 ltac:(lia)).
  change (2 ^ 15) with 32768 in Hs.
  destruct (Z.leb_spec 0x8000 v) as [Hle|Hlt].
  - assert (Hq : v / 32768 = 1) by (symmetry; apply Z.div_unique with (v - 32768); lia).
    rewrite Hq in Hs. destruct (Z.testbit v 15); [reflexivity|discriminate Hs].
  - assert (Hq : v / 32768 = 0) by (apply Z.div_small; lia).
    rewrite Hq in Hs. destruct (Z.testbit v 15); [discriminate Hs|reflexivity].
Qed.

Lemma int16_of_uint16 (v : Z) :
  0 <= v < 65536 -> int16_of v = if v <? 0x8000 then v else v - 65536.
Proof.
  intros Hv. unfold int16_of.
  change (2 ^ 16) with 65536.
  rewrite Z.mod_small by lia.
  rewrite testbit15_small by lia.
  destruct (Z.ltb_spec v 0x8000); destruct (Z.leb_spec 0x8000 v); lia.
Qed.

(** The two transactions of [readRegister], as the code issues them. *)
Lemma readRegister_unfold bus ina reg w :
  readRegister bus ina reg w =
  let t1 := mkTx (dev_addr (dev ina)) [byte_of reg] 0 in
  let t2 := mkTx (dev_addr (dev ina)) [] 2 in
  let n := List.length (w_log w) in
  match bus n t1 with
  | Nack c => (Err (BusIOError c), mkWorld (w_log w ++ [(t1, Nack c)]) (w_trace w) (w_fetches w))
  | Ack a =>
      match bus (S n) t2 with
      | Nack c => (Err (BusIOError c),
                   mkWorld (w_log w ++ [(t1, Ack a); (t2, Nack c)]) (w_trace w) (w_fetches w))
      | Ack d => (Ok (be16 (byte_of (nth 0 d 0)) (byte_of (nth 1 d 0))),
                  mkWorld (w_log w ++ [(t1, Ack a); (t2, Ack d)]) (w_trace w) (w_fetches w))
      end
  end.
Proof.
  unfold readRegister, bind, ret, devTx; cbn.
  destruct (bus (List.length (w_log w)) _) as [a|c]; cbn; [|reflexivity].
  rewrite length_app, Nat.add_1_r; cbn.
  destruct (bus (S (List.length (w_log w))) _) as [d|c]; cbn;
    rewrite <- app_assoc; reflexivity.
Qed.

(** [uint16(b0)<<8 | uint16(b1)] on two bytes is [b0 * 256 + b1]. *)
Lemma be16_bytes (b0 b1 : Z) :
  0 <= b0 < 256 -> 0 <= b1 < 256 -> be16 b0 b1 = b0 * 256 + b1.
Proof.
  intros H0 H1. unfold be16.
  assert (Hsh : (Z.shiftl b0 8) mod 2 ^ 16 = b0 * 256).
  { rewrite Z.shiftl_mul_pow2 by lia. apply Z.mod_small. change (2 ^ 8) with 256. lia. }
  rewrite Hsh.
  assert (Hdis : Z.land (b0 * 256) b1 = 0).
  { apply Z.bits_inj'. intros i Hi.
    rewrite Z.land_spec, Z.bits_0.
    change 256 with (2 ^ 8). rewrite <- Z.shiftl_mul_pow2 by lia.
    rewrite Z.shiftl_spec by lia.
    destruct (Z.lt_ge_cases i 8) as [Hlt|Hge].
    - rewrite Z.testbit_neg_r by lia. reflexivity.
    - replace b1 with (b1 mod 2 ^ 8) by (apply Z.mod_small; change (2 ^ 8) with 256; lia).
      rewrite Z.mod_pow2_bits_high by lia. apply Bool.andb_false_r. }
  pose proof (Z.add_lor_land (b0 * 256) b1) as Hal. lia.
Qed.

Lemma byte_of_range (z : Z) : 0 <= byte_of z < 256.
Proof. unfold byte_of. apply Z.mod_pos_bound. lia. Qed.

(** ** Claims *)

(** C1: [ReadCurrent] reinterprets the 16-bit raw value of the current
    register as two's complement before scaling by 1 mA/bit: a raw value
    [v < 0x8000] gives [v * 0.001] amps and [v >= 0x8000] gives
    [(v - 65536) * 0.001] amps; in particular [0xFFFF] gives [-0.001]. *)
Theorem ReadCurrent_twos_complement bus ina w (v : Z) :
  0 <= v < 65536 ->
  fst (readRegister bus ina currentReg w) = Ok v ->
  fst (ReadCurrent bus ina w) =
    Ok (if v <? 0x8000 then inject_Z v * 0.001 else inject_Z (v - 65536) * 0.001)%Q
  /\ (current_of_raw 0xFFFF == -0.001)%Q.
Proof.
  intros Hv Hr. split.
  - unfold ReadCurrent. rewrite fst_bind_ret, Hr.
    unfold current_of_raw. rewrite int16_of_uint16 by exact Hv.
    destruct (v <? 0x8000); reflexivity.
  - reflexivity.
Qed.

Lemma ReadCurrent_twos_complement_witness :
  (0 <= 0xFFFF < 65536) /\
  fst (readRegister (fun _ _ => Ack [0xFF; 0xFF]) ina0 currentReg w0) = Ok 0xFFFF /\
  fst (ReadCurrent (fun _ _ => Ack [0xFF; 0xFF]) ina0 w0) =
    Ok (if 0xFFFF <? 0x8000 then inject_Z 0xFFFF * 0.001
        else inject_Z (0xFFFF - 65536) * 0.001)%Q
  /\ (current_of_raw 0xFFFF == -0.001)%Q.
Proof.
  assert (H1 : 0 <= 0xFFFF < 65536) by lia.
  assert (H2 : fst (readRegister (fun _ _ => Ack [0xFF; 0xFF]) ina0 currentReg w0) = Ok 0xFFFF)
    by reflexivity.
  exact (conj H1 (conj H2 (ReadCurrent_twos_complement _ _ _ _ H1 H2))).
Defined.

(** C6: [writeRegister(addr, v)] issues exactly one write transaction whose
    payload is [[addr, v >> 8, v & 0xFF]] (big-endian) and returns that
    transaction's error; [(0x00, 0x4127)] serializes to [[0x00, 0x41, 0x27]]. *)
Theorem writeRegister_big_endian bus ina (addr v : Z) w :
  0 <= addr < 256 -> 0 <= v < 65536 ->
  let t := mkTx (dev_addr (dev ina)) [addr; Z.shiftr v 8; Z.land v 0xFF] 0 in
  let r := bus (List.length (w_log w)) t in
  writeRegister bus ina addr v w =
    (match r with Ack _ => Ok tt | Nack c => Err (BusIOError c) end,
     mkWorld (w_log w ++ [(t, r)]) (w_trace w) (w_fetches w))
  /\ [byte_of configReg; byte_of (Z.shiftr configValue 8); byte_of (Z.land configValue 0xFF)]
     = [0x00; 0x41; 0x27].
Proof.
  intros Ha Hv t r. split; [|reflexivity].
  assert (Hhi : byte_of (Z.shiftr v 8) = Z.shiftr v 8).
  { apply byte_of_small. rewrite Z.shiftr_div_pow2 by lia. change (2 ^ 8) with 256.
    split; [apply Z.div_pos; lia|apply Z.div_lt_upper_bound; lia]. }
  assert (Hlo : byte_of (Z.land v 0xFF) = Z.land v 0xFF).
  { apply byte_of_small. change 0xFF with (Z.ones 8). rewrite Z.land_ones by lia.
    apply Z.mod_pos_bound. lia. }
  unfold writeRegister, bind, ret, devTx.
  rewrite (byte_of_small addr Ha), Hhi, Hlo. fold t. fold r.
  destruct r; reflexivity.
Qed.

Lemma writeRegister_big_endian_witness :
  (0 <= 0 < 256) /\ (0 <= 0x4127 < 65536) /\
  (let t := mkTx (dev_addr (dev ina0)) [0; Z.shiftr 0x4127 8; Z.land 0x4127 0xFF] 0 in
   let r := (fun (_ : nat) (_ : Tx) => Ack []) (List.length (w_log w0)) t in
   writeRegister (fun _ _ => Ack []) ina0 0 0x4127 w0 =
     (match r with Ack _ => Ok tt | Nack c => Err (BusIOError c) end,
      mkWorld (w_log w0 ++ [(t, r)]) (w_trace w0) (w_fetches w0))
   /\ [byte_of configReg; byte_of (Z.shiftr configValue 8); byte_of (Z.land configValue 0xFF)]
      = [0x00; 0x41; 0x27]).
Proof.
  assert (H1 : 0 <= 0 < 256) by lia.
  assert (H2 : 0 <= 0x4127 < 65536) by lia.
  exact (conj H1 (conj H2 (writeRegister_big_endian (fun _ _ => Ack []) ina0 0 0x4127 w0 H1 H2))).
Defined.

(** C7 (as amended): [readRegister(addr)] first issues a write-only
    transaction carrying the single byte [addr]; if it fails the call fails
    with that bus error and issues nothing else.  Otherwise it issues a
    read-only transaction of 2 bytes; if that fails the call fails with its
    error, and otherwise it returns [byte0 << 8 | byte1] = [byte0 * 256 + byte1]
    after exactly these two transactions ([[0x01, 0x2C]] gives [0x012C]). *)
Theorem readRegister_select_then_read bus ina reg w :
  readRegister bus ina reg w =
  (let t1 := mkTx (dev_addr (dev ina)) [byte_of reg] 0 in
   let t2 := mkTx (dev_addr (dev ina)) [] 2 in
   let n := List.length (w_log w) in
   match bus n t1 with
   | Nack c => (Err (BusIOError c), mkWorld (w_log w ++ [(t1, Nack c)]) (w_trace w) (w_fetches w))
   | Ack a =>
       match bus (S n) t2 with
       | Nack c => (Err (BusIOError c),
                    mkWorld (w_log w ++ [(t1, Ack a); (t2, Nack c)]) (w_trace w) (w_fetches w))
       | Ack d => (Ok (byte_of (nth 0 d 0) * 256 + byte_of (nth 1 d 0)),
                   mkWorld (w_log w ++ [(t1, Ack a); (t2, Ack d)]) (w_trace w) (w_fetches w))
       end
   end)
  /\ be16 0x01 0x2C = 0x012C.
Proof.
  split; [|reflexivity].
  rewrite readRegister_unfold. cbv zeta.
  destruct (bus _ _) as [a|c]; [|reflexivity].
  destruct (bus _ _) as [d|c]; [|reflexivity].
  rewrite be16_bytes by apply byte_of_range. reflexivity.
Qed.

(** C7 counterexample: when the address-select transaction fails, the call
    issues one bus transaction, not two. *)
Lemma readRegister_failed_select_single_tx :
  fst (readRegister (fun _ _ => Nack 1) ina0 busVoltReg w0) = Err (BusIOError 1) /\
  w_log (snd (readRegister (fun _ _ => Nack 1) ina0 busVoltReg w0))
    = [(mkTx 0x40 [0x02] 0, Nack 1)] /\
  List.length (w_log (snd (readRegister (fun _ _ => Nack 1) ina0 busVoltReg w0))) <> 2%nat.
Proof. vm_compute. split; [reflexivity|split; [reflexivity|discriminate]]. Qed.

(** C8: for a 16-bit raw value [v], [ReadBusVoltage] returns [v * 0.00125]
    volts and [ReadPower] returns [v * 0.025] watts, with no sign
    reinterpretation (exact in the rational model of [float64]). *)
Theorem ReadBusVoltage_ReadPower_unsigned bus ina w1 w2 (v1 v2 : Z) :
  0 <= v1 < 65536 -> 0 <= v2 < 65536 ->
  fst (readRegister bus ina busVoltReg w1) = Ok v1 ->
  fst (readRegister bus ina powerReg w2) = Ok v2 ->
  (exists q, fst (ReadBusVoltage bus ina w1) = Ok q /\ (q == inject_Z v1 * 0.00125)%Q) /\
  (exists p, fst (ReadPower bus ina w2) = Ok p /\ (p == inject_Z v2 * 0.025)%Q).
Proof.
  intros _ _ H1 H2. split.
  - exists (bus_voltage_of_raw v1). split.
    + unfold ReadBusVoltage. rewrite fst_bind_ret, H1. reflexivity.
    + unfold bus_voltage_of_raw. apply Qmult_comp; reflexivity.
  - exists (power_of_raw v2). split.
    + unfold ReadPower. rewrite fst_bind_ret, H2. reflexivity.
    + unfold power_of_raw. apply Qmult_comp; reflexivity.
Qed.

Lemma ReadBusVoltage_ReadPower_unsigned_witness :
  (0 <= 0xFFFF < 65536) /\
  fst (readRegister (fun _ _ => Ack [0xFF; 0xFF]) ina0 busVoltReg w0) = Ok 0xFFFF /\
  fst (readRegister (fun _ _ => Ack [0xFF; 0xFF]) ina0 powerReg w0) = Ok 0xFFFF /\
  (exists q, fst (ReadBusVoltage (fun _ _ => Ack [0xFF; 0xFF]) ina0 w0) = Ok q /\
             (q == inject_Z 0xFFFF * 0.00125)%Q) /\
  (exists p, fst (ReadPower (fun _ _ => Ack [0xFF; 0xFF]) ina0 w0) = Ok p /\
             (p == inject_Z 0xFFFF * 0.025)%Q).
Proof.
  assert (H1 : 0 <= 0xFFFF < 65536) by lia.
  assert (H3 : fst (readRegister (fun _ _ => Ack [0xFF; 0xFF]) ina0 busVoltReg w0) = Ok 0xFFFF)
    by reflexivity.
  assert (H4 : fst (readRegister (fun _ _ => Ack [0xFF; 0xFF]) ina0 powerReg w0) = Ok 0xFFFF)
    by reflexivity.
  exact (conj H1 (conj H3 (conj H4
    (ReadBusVoltage_ReadPower_unsigned _ ina0 w0 w0 _ _ H1 H1 H3 H4)))).
Defined.

Ltac forall_acked :=
  cbn; repeat (apply Forall_cons; [exact I|]); apply Forall_nil.

(** One outcome of [ReadSensorData] after the bus's answers are fixed. *)
Ltac close_sensor_case :=
  split; [reflexivity|]; split; [reflexivity|];
  do 2 eexists; split; [rewrite <- ?app_assoc; reflexivity|];
  split; [cbn; reflexivity|];
  lazymatch goal with
  | |- exists pre t c, ?l = _ /\ _ =>
      exists (removelast l); do 2 eexists;
      split; [cbn; reflexivity|]; split; [forall_acked|reflexivity]
  | |- _ = [] /\ _ =>
      split; [reflexivity|]; split; [forall_acked|reflexivity]
  end.

(** C2: [ReadSensorData] reads bus voltage, then current, then power: the
    transactions it issues are a prefix of those three register reads in that
    order, and it touches neither the trace nor the configuration.  It
    returns a reading only when all six transactions succeeded, and that
    reading holds exactly the three converted raw values; otherwise it
    stops at the first failed transaction and returns that bus error
    wrapped with the quantity whose read failed, and no reading. *)
Theorem ReadSensorData_all_or_nothing bus ina w :
  let '(r, w') := ReadSensorData bus ina w in
  w_trace w' = w_trace w /\ w_fetches w' = w_fetches w /\
  exists new rest,
    w_log w' = w_log w ++ new /\ sensor_txs ina = map fst new ++ rest /\
    match r with
    | Ok out =>
        rest = [] /\ Forall acked new /\
        out = mkOutput (bus_voltage_of_raw (raw_at new 1)) (current_of_raw (raw_at new 3))
                       (power_of_raw (raw_at new 5))
    | Err e =>
        exists pre t c, new = pre ++ [(t, Nack c)] /\ Forall acked pre /\
        e = Wrapped (quantity_msg (List.length pre / 2)) (BusIOError c)
    end.
Proof.
  unfold ReadSensorData, ReadBusVoltage, ReadCurrent, ReadPower, readRegister,
    wrap_err, bind, ret, devTx, sensor_txs, reg_read_txs; cbn.
  repeat (destruct (bus _ _); cbn); close_sensor_case.
Qed.

(** ** Scheduler lemmas *)

Lemma ReadSensorData_world bus ina w :
  w_trace (snd (ReadSensorData bus ina w)) = w_trace w /\
  w_fetches (snd (ReadSensorData bus ina w)) = w_fetches w.
Proof.
  unfold ReadSensorData, ReadBusVoltage, ReadCurrent, ReadPower, readRegister,
    wrap_err, bind, ret, devTx; cbn.
  repeat (destruct (bus _ _); cbn); split; reflexivity.
Qed.

Lemma loop_trace_extends bus config fuel ina w :
  exists tr, w_trace (outcome_world (loop bus config fuel ina w)) = w_trace w ++ tr.
Proof.
  revert w. induction fuel as [|fuel IH]; intros w; cbn.
  - exists []. rewrite app_nil_r. reflexivity.
  - destruct (config (w_fetches w)) as [f|]; cbn.
    2: { exists []. rewrite app_nil_r. reflexivity. }
    destruct ina as [d|]; cbn.
    2: { eexists. reflexivity. }
    pose proof (ReadSensorData_world bus d
      (emit {| w_log := w_log w; w_trace := w_trace w; w_fetches := S (w_fetches w) |}
            (Sleep (sleep_duration f)))) as [Htr _].
    destruct (ReadSensorData bus d _) as [[data|e] w3]; cbn in Htr |- *.
    + destruct (IH (emit w3 (LogReading data))) as [tr Htr'].
      rewrite Htr'. cbn. rewrite Htr, <- !app_assoc. eexists. reflexivity.
    + rewrite Htr, <- !app_assoc. eexists. reflexivity.
Qed.

Lemma sleeps_app (a b : list Event) : sleeps (a ++ b) = sleeps a ++ sleeps b.
Proof.
  induction a as [|[ns|e|o] a IH]; cbn; rewrite ?IH; reflexivity.
Qed.

(** C3 (the code's behaviour): a tick whose [ReadSensorData] fails logs the
    error and then dereferences the nil reading, so the loop panics: no
    later tick runs, whatever the remaining number of ticks. *)
Theorem loop_failed_sample_panics bus config fuel d w f e w3 :
  config (w_fetches w) = Some f ->
  ReadSensorData bus d (after_sleep w f) = (Err e, w3) ->
  loop bus config (S fuel) (Some d) w =
    Panicked (emit w3 (LogError (Wrapped "Failed to read sensor data" e))).
Proof.
  intros Hc Hr. cbn. rewrite Hc. unfold after_sleep in Hr. cbn in Hr |- *.
  rewrite Hr. reflexivity.
Qed.

Lemma loop_failed_sample_panics_witness :
  let w := snd (NewINA226 bus_fails_after_init w0) in
  cfg5 (w_fetches w) = Some (5 # 1) /\
  ReadSensorData bus_fails_after_init ina0 (after_sleep w (5 # 1)) =
    (Err (Wrapped "failed to read bus voltage" (BusIOError 7)),
     mkWorld (w_log (after_sleep w (5 # 1))
                ++ [(mkTx ina226Address [busVoltReg] 0, Nack 7)])
             (w_trace (after_sleep w (5 # 1))) (w_fetches (after_sleep w (5 # 1)))) /\
  loop bus_fails_after_init cfg5 100 (Some ina0) w =
    Panicked (emit (mkWorld (w_log (after_sleep w (5 # 1))
                               ++ [(mkTx ina226Address [busVoltReg] 0, Nack 7)])
                            (w_trace (after_sleep w (5 # 1)))
                            (w_fetches (after_sleep w (5 # 1))))
                   (LogError (Wrapped "Failed to read sensor data"
                                (Wrapped "failed to read bus voltage" (BusIOError 7))))).
Proof.
  intros w.
  assert (H1 : cfg5 (w_fetches w) = Some (5 # 1)) by reflexivity.
  assert (H2 : ReadSensorData bus_fails_after_init ina0 (after_sleep w (5 # 1)) =
    (Err (Wrapped "failed to read bus voltage" (BusIOError 7)),
     mkWorld (w_log (after_sleep w (5 # 1))
                ++ [(mkTx ina226Address [busVoltReg] 0, Nack 7)])
             (w_trace (after_sleep w (5 # 1))) (w_fetches (after_sleep w (5 # 1)))))
    by reflexivity.
  exact (conj H1 (conj H2 (loop_failed_sample_panics _ _ 99 _ _ _ _ _ H1 H2))).
Defined.

(** C4: at every tick, a [ConfigError] from the frequency fetch makes the
    loop (and so [run]) return that error wrapped as
    "unable to read configuration", before any sleep or bus transaction;
    a successful fetch lets the tick go on to its sleep. *)
Theorem loop_config_error_aborts bus config fuel ina w :
  match config (w_fetches w) with
  | None =>
      loop bus config (S fuel) ina w =
        Returned (Wrapped "unable to read configuration" ConfigError)
                 (mkWorld (w_log w) (w_trace w) (S (w_fetches w)))
  | Some f =>
      exists tr, w_trace (outcome_world (loop bus config (S fuel) ina w))
                 = w_trace w ++ Sleep (sleep_duration f) :: tr
  end.
Proof.
  destruct (config (w_fetches w)) as [f|] eqn:Hc.
  - cbn. rewrite Hc. destruct ina as [d|]; cbn.
      2: { eexists. reflexivity. }
      pose proof (ReadSensorData_world bus d
        (emit {| w_log := w_log w; w_trace := w_trace w; w_fetches := S (w_fetches w) |}
              (Sleep (sleep_duration f)))) as [Htr _].
      destruct (ReadSensorData bus d _) as [[data|e] w3]; cbn in Htr |- *.
      + destruct (loop_trace_extends bus config fuel (Some d) (emit w3 (LogReading data)))
          as [tr Htr'].
        rewrite Htr'. cbn. rewrite Htr, <- !app_assoc. eexists. reflexivity.
      + rewrite Htr, <- !app_assoc. eexists. reflexivity.
  - cbn. rewrite Hc. reflexivity.
Qed.

(** C9: the loop calls [GetFloat] afresh at every tick, and the sleep of
    the [i]-th tick from [w] lasts [sleep_duration f] ([1 / f] seconds in
    nanoseconds) where [f] is the answer to the [i]-th of those calls: each
    sleep depends only on the value fetched at its own tick boundary. *)
Theorem loop_sleep_uses_fresh_fetch bus config fuel ina w :
  let w' := outcome_world (loop bus config fuel ina w) in
  exists sl,
    sleeps (w_trace w') = sleeps (w_trace w) ++ sl /\
    (w_fetches w' = (w_fetches w + List.length sl)%nat \/
     w_fetches w' = S (w_fetches w + List.length sl)) /\
    forall i d, nth_error sl i = Some d ->
      exists f, config (w_fetches w + i)%nat = Some f /\ d = sleep_duration f.
Proof.
  revert w. induction fuel as [|fuel IH]; intros w; cbn.
  - exists []. rewrite app_nil_r. split; [reflexivity|]. split.
    + left. rewrite Nat.add_0_r. reflexivity.
    + intros [|i] d H; discriminate H.
  - destruct (config (w_fetches w)) as [f|] eqn:Hc; cbn.
    2: { exists []. rewrite app_nil_r. split; [reflexivity|]. split.
         - right. rewrite Nat.add_0_r. reflexivity.
         - intros [|i] d H; discriminate H. }
    destruct ina as [d|]; cbn.
    2: { exists [sleep_duration f]. rewrite sleeps_app. split; [reflexivity|]. split.
         - left. cbn. lia.
         - intros [|[|i]] d' H; cbn in H; try discriminate H.
           injection H as <-. exists f. rewrite Nat.add_0_r. split; [exact Hc|reflexivity]. }
    pose proof (ReadSensorData_world bus d
      (emit {| w_log := w_log w; w_trace := w_trace w; w_fetches := S (w_fetches w) |}
            (Sleep (sleep_duration f)))) as [Htr Hf].
    destruct (ReadSensorData bus d _) as [[data|e] w3]; cbn in Htr, Hf |- *.
    + destruct (IH (emit w3 (LogReading data))) as (sl & Hsl & Hfe & Hnth).
      cbn in Hsl, Hfe, Hnth.
      exists (sleep_duration f :: sl).
      rewrite Hsl, Htr, !sleeps_app. cbn. rewrite <- !app_assoc. split; [reflexivity|].
      split.
      * rewrite Hf in Hfe. cbn. lia.
      * intros [|i] d' H; cbn in H.
        -- injection H as <-. exists f. rewrite Nat.add_0_r. split; [exact Hc|reflexivity].
        -- rewrite Hf in Hnth. destruct (Hnth i d' H) as (f' & Hc' & ->).
           exists f'. split; [|reflexivity].
           replace (w_fetches w + S i)%nat with (S (w_fetches w) + i)%nat by lia. exact Hc'.
    + exists [sleep_duration f].
      rewrite Htr, !sleeps_app. cbn. rewrite app_nil_r. split; [reflexivity|]. split.
      * left. rewrite Hf. cbn. lia.
      * intros [|[|i]] d' H; cbn in H; try discriminate H.
        injection H as <-. exists f. rewrite Nat.add_0_r. split; [exact Hc|reflexivity].
Qed.

(** C5 (the code's behaviour): when the configuration-register write
    fails, [NewINA226] returns an initialization error and no driver, but
    [run] only logs it and enters the polling loop with the nil driver: the
    first tick sleeps and then samples through it, which panics. *)
Theorem run_uses_failed_driver bus config fuel w c f :
  bus (List.length (w_log w)) config_write_tx = Nack c ->
  config (w_fetches w) = Some f ->
  NewINA226 bus w =
    (Err (Wrapped "failed to initialize INA226" (BusIOError c)),
     mkWorld (w_log w ++ [(config_write_tx, Nack c)]) (w_trace w) (w_fetches w)) /\
  run bus config true true (S fuel) w =
    Panicked (mkWorld (w_log w ++ [(config_write_tx, Nack c)])
                      (w_trace w ++ [LogError (Wrapped "failed to initialize INA226" (BusIOError c));
                                     Sleep (sleep_duration f)])
                      (S (w_fetches w))).
Proof.
  intros Hb Hc.
  assert (Hn : NewINA226 bus w =
    (Err (Wrapped "failed to initialize INA226" (BusIOError c)),
     mkWorld (w_log w ++ [(config_write_tx, Nack c)]) (w_trace w) (w_fetches w))).
  { unfold NewINA226, initialize, writeRegister, wrap_err, bind, ret, devTx.
    cbn. unfold config_write_tx in Hb. cbn in Hb. rewrite Hb. reflexivity. }
  split; [exact Hn|].
  unfold run. cbn [negb]. rewrite Hn. cbn. rewrite Hc. unfold emit. cbn.
  rewrite <- app_assoc. reflexivity.
Qed.

Lemma run_uses_failed_driver_witness :
  (fun (_ : nat) (_ : Tx) => Nack 3) (List.length (w_log w0)) config_write_tx = Nack 3 /\
  cfg5 (w_fetches w0) = Some (5 # 1) /\
  NewINA226 (fun _ _ => Nack 3) w0 =
    (Err (Wrapped "failed to initialize INA226" (BusIOError 3)),
     mkWorld (w_log w0 ++ [(config_write_tx, Nack 3)]) (w_trace w0) (w_fetches w0)) /\
  run (fun _ _ => Nack 3) cfg5 true true 10 w0 =
    Panicked (mkWorld (w_log w0 ++ [(config_write_tx, Nack 3)])
                      (w_trace w0 ++ [LogError (Wrapped "failed to initialize INA226" (BusIOError 3));
                                      Sleep (sleep_duration (5 # 1))])
                      (S (w_fetches w0))).
Proof.
  assert (H1 : (fun (_ : nat) (_ : Tx) => Nack 3) (List.length (w_log w0)) config_write_tx = Nack 3)
    by reflexivity.
  assert (H2 : cfg5 (w_fetches w0) = Some (5 # 1)) by reflexivity.
  exact (conj H1 (conj H2 (run_uses_failed_driver _ cfg5 9 w0 3 (5 # 1) H1 H2))).
Defined.

(** C10: for every frequency [f > 0] the sleep computation of the loop
    divides only by [f] itself, never by zero, so it always yields a
    duration, the one the loop sleeps ([time.Duration(1 / f * 1e9)]); for
    [f = 0.5] that is two seconds. *)
Theorem sleep_divisor_nonzero (f : Q) :
  (0 < f)%Q ->
  sleep_ns_main f = Some (sleep_duration f) /\
  sleep_ns_main (1 # 2) = Some 2000000000.
Proof.
  intros Hf. split; [|reflexivity].
  unfold sleep_ns_main, div_checked, sleep_duration, sleepSeconds.
  destruct (Qeq_bool f 0) eqn:E.
  - apply Qeq_bool_iff in E. rewrite E in Hf. discriminate Hf.
  - reflexivity.
Qed.

Lemma sleep_divisor_nonzero_witness :
  (0 < 1 # 2)%Q /\
  sleep_ns_main (1 # 2) = Some (sleep_duration (1 # 2)) /\
  sleep_ns_main (1 # 2) = Some 2000000000.
Proof.
  assert (H : (0 < 1 # 2)%Q) by reflexivity.
  exact (conj H (sleep_divisor_nonzero (1 # 2) H)).
Defined.

(** The variant of src/unnamed/part_000 truncates [0.5] to a zero divisor. *)
Lemma part000_sleep_zero_divisor : sleep_ns_part000 (1 # 2) = None.
Proof. reflexivity. Qed.

(** ** Further properties of the driver *)

Lemma NewINA226_unfold bus w :
  NewINA226 bus w =
  let n := List.length (w_log w) in
  match bus n config_write_tx with
  | Nack c => (Err (Wrapped "failed to initialize INA226" (BusIOError c)),
               mkWorld (w_log w ++ [(config_write_tx, Nack c)]) (w_trace w) (w_fetches w))
  | Ack a =>
      match bus (S n) cal_write_tx with
      | Nack c => (Err (Wrapped "failed to initialize INA226" (BusIOError c)),
                   mkWorld (w_log w ++ [(config_write_tx, Ack a); (cal_write_tx, Nack c)])
                           (w_trace w) (w_fetches w))
      | Ack b => (Ok (mkINA226 (mkDev ina226Address)),
                  mkWorld (w_log w ++ [(config_write_tx, Ack a); (cal_write_tx, Ack b)])
                          (w_trace w) (w_fetches w))
      end
  end.
Proof.
  unfold NewINA226, initialize, writeRegister, wrap_err, bind, ret, devTx; cbn.
  change {| tx_addr := ina226Address; tx_w := [0; 65; 39]; tx_rlen := 0 |} with config_write_tx.
  change {| tx_addr := ina226Address; tx_w := [5; 10; 0]; tx_rlen := 0 |} with cal_write_tx.
  destruct (bus (List.length (w_log w)) config_write_tx) as [a|c]; cbn; [|reflexivity].
  rewrite length_app, Nat.add_1_r; cbn.
  destruct (bus (S (List.length (w_log w))) cal_write_tx) as [b|c]; cbn;
    rewrite <- app_assoc; reflexivity.
Qed.

Lemma readRegister_range bus ina reg w v :
  fst (readRegister bus ina reg w) = Ok v -> 0 <= v < 65536.
Proof.
  rewrite readRegister_unfold. cbv zeta.
  destruct (bus _ _) as [a|c]; cbn; [|discriminate].
  destruct (bus _ _) as [d|c]; cbn; [|discriminate].
  intros H. injection H as <-.
  rewrite be16_bytes by apply byte_of_range.
  pose proof (byte_of_range (nth 0 d 0)). pose proof (byte_of_range (nth 1 d 0)). lia.
Qed.

(** X3: [writeRegister]'s big-endian payload bytes, reassembled as
    [readRegister] does, give back the 16-bit value written. *)
Theorem register_encoding_roundtrip (v : Z) :
  0 <= v < 65536 ->
  be16 (byte_of (Z.shiftr v 8)) (byte_of (Z.land v 0xFF)) = v.
Proof.
  intros Hv.
  assert (Hhi : Z.shiftr v 8 = v / 256) by (rewrite Z.shiftr_div_pow2 by lia; reflexivity).
  assert (Hlo : Z.land v 0xFF = v mod 256)
    by (change 0xFF with (Z.ones 8); rewrite Z.land_ones by lia; reflexivity).
  rewrite Hhi, Hlo.
  rewrite (byte_of_small (v / 256)).
  2: { split; [apply Z.div_pos; lia|apply Z.div_lt_upper_bound; lia]. }
  rewrite (byte_of_small (v mod 256)) by (apply Z.mod_pos_bound; lia).
  rewrite be16_bytes.
  - pose proof (Z.div_mod v 256 ltac:(lia)). lia.
  - split; [apply Z.div_pos; lia|apply Z.div_lt_upper_bound; lia].
  - apply Z.mod_pos_bound; lia.
Qed.

Lemma register_encoding_roundtrip_witness :
  (0 <= 0x4127 < 65536) /\
  be16 (byte_of (Z.shiftr 0x4127 8)) (byte_of (Z.land 0x4127 0xFF)) = 0x4127.
Proof.
  assert (H : 0 <= 0x4127 < 65536) by lia.
  exact (conj H (register_encoding_roundtrip 0x4127 H)).
Defined.

(** X4: every current [ReadCurrent] returns lies in [[-32.768, 32.767]] amps,
    the range of a signed 16-bit register at 1 mA/bit. *)
Theorem ReadCurrent_range bus ina w (q : Q) :
  fst (ReadCurrent bus ina w) = Ok q -> (-32.768 <= q /\ q <= 32.767)%Q.
Proof.
  unfold ReadCurrent. rewrite fst_bind_ret.
  destruct (fst (readRegister bus ina currentReg w)) as [v|e] eqn:E; [|discriminate].
  intros H. injection H as <-.
  pose proof (readRegister_range _ _ _ _ _ E) as Hv.
  unfold current_of_raw. rewrite int16_of_uint16 by exact Hv.
  destruct (Z.ltb_spec v 0x8000); unfold Qle; cbn; lia.
Qed.

Lemma ReadCurrent_range_witness :
  fst (ReadCurrent (fun _ _ => Ack [0x80; 0x00]) ina0 w0) = Ok (-32.768)%Q /\
  (-32.768 <= -32.768 /\ -32.768 <= 32.767)%Q.
Proof.
  assert (H : fst (ReadCurrent (fun _ _ => Ack [0x80; 0x00]) ina0 w0) = Ok (-32.768)%Q)
    by reflexivity.
  exact (conj H (ReadCurrent_range _ _ _ _ H)).
Defined.

(** X5: bus voltage and power are never negative: [ReadBusVoltage] returns
    a value in [[0, 81.91875]] volts and [ReadPower] one in [[0, 1638.375]]
    watts. *)
Theorem ReadBusVoltage_ReadPower_range bus ina w1 w2 (q p : Q) :
  fst (ReadBusVoltage bus ina w1) = Ok q ->
  fst (ReadPower bus ina w2) = Ok p ->
  (0 <= q /\ q <= 81.91875)%Q /\ (0 <= p /\ p <= 1638.375)%Q.
Proof.
  unfold ReadBusVoltage, ReadPower. rewrite !fst_bind_ret.
  destruct (fst (readRegister bus ina busVoltReg w1)) as [v1|e] eqn:E1; [|discriminate].
  destruct (fst (readRegister bus ina powerReg w2)) as [v2|e] eqn:E2; [|discriminate].
  intros H1 H2. injection H1 as <-. injection H2 as <-.
  pose proof (readRegister_range _ _ _ _ _ E1).
  pose proof (readRegister_range _ _ _ _ _ E2).
  unfold bus_voltage_of_raw, power_of_raw, Qle; cbn.
  split; split; lia.
Qed.

Lemma ReadBusVoltage_ReadPower_range_witness :
  fst (ReadBusVoltage (fun _ _ => Ack [0xFF; 0xFF]) ina0 w0) = Ok (81.91875)%Q /\
  fst (ReadPower (fun _ _ => Ack [0xFF; 0xFF]) ina0 w0) = Ok (1638.375)%Q /\
  (0 <= 81.91875 /\ 81.91875 <= 81.91875)%Q /\ (0 <= 1638.375 /\ 1638.375 <= 1638.375)%Q.
Proof.
  assert (H1 : fst (ReadBusVoltage (fun _ _ => Ack [0xFF; 0xFF]) ina0 w0) = Ok (81.91875)%Q).
  { vm_compute. reflexivity. }
  assert (H2 : fst (ReadPower (fun _ _ => Ack [0xFF; 0xFF]) ina0 w0) = Ok (1638.375)%Q).
  { vm_compute. reflexivity. }
  exact (conj H1 (conj H2 (ReadBusVoltage_ReadPower_range _ _ _ _ _ _ H1 H2))).
Defined.

(** X6: the current conversion loses no information: two 16-bit raw
    values that give the same current are equal. *)
Theorem current_of_raw_injective (a b : Z) :
  0 <= a < 65536 -> 0 <= b < 65536 ->
  (current_of_raw a == current_of_raw b)%Q -> a = b.
Proof.
  intros Ha Hb. unfold current_of_raw.
  rewrite (int16_of_uint16 a Ha), (int16_of_uint16 b Hb).
  unfold Qeq; cbn.
  destruct (Z.ltb_spec a 0x8000); destruct (Z.ltb_spec b 0x8000); lia.
Qed.

Lemma current_of_raw_injective_witness :
  (0 <= 0x7FFF < 65536) /\ (0 <= 0x7FFF < 65536) /\
  (current_of_raw 0x7FFF == current_of_raw 0x7FFF)%Q /\ 0x7FFF = 0x7FFF.
Proof.
  assert (Ha : 0 <= 0x7FFF < 65536) by lia.
  assert (He : (current_of_raw 0x7FFF == current_of_raw 0x7FFF)%Q) by reflexivity.
  exact (conj Ha (conj Ha (conj He (current_of_raw_injective _ _ Ha Ha He)))).
Defined.

(** ** Further properties of the polling loop *)

Lemma ReadSensorData_healthy bus d w :
  (forall n t, exists x, bus n t = Ack x) ->
  exists out new,
    ReadSensorData bus d w = (Ok out, mkWorld (w_log w ++ new) (w_trace w) (w_fetches w)) /\
    List.length new = 6%nat.
Proof.
  intros Hbus.
  unfold ReadSensorData, ReadBusVoltage, ReadCurrent, ReadPower, readRegister,
    wrap_err, bind, ret, devTx; cbn.
  repeat (match goal with
          | |- context [bus ?n ?t] =>
              let x := fresh "x" in let Hx := fresh "Hx" in
              destruct (Hbus n t) as [x Hx]; rewrite Hx; clear Hx
          end; cbn).
  do 2 eexists. split.
  - rewrite <- !app_assoc. reflexivity.
  - reflexivity.
Qed.

Lemma ReadSensorData_only_sensor_txs bus d w :
  exists new, w_log (snd (ReadSensorData bus d w)) = w_log w ++ new /\
              Forall (fun p => In (fst p) (sensor_txs d)) new.
Proof.
  unfold ReadSensorData, ReadBusVoltage, ReadCurrent, ReadPower, readRegister,
    wrap_err, bind, ret, devTx; cbn.
  repeat (destruct (bus _ _); cbn);
    (eexists; split; [rewrite <- ?app_assoc; reflexivity|];
     repeat (apply Forall_cons; [cbn; unfold sensor_txs, reg_read_txs; cbn; tauto|]);
     apply Forall_nil).
Qed.

Lemma loop_healthy bus config fuel d w :
  (forall n t, exists x, bus n t = Ack x) ->
  (forall k, exists f, config k = Some f) ->
  exists w',
    loop bus config fuel (Some d) w = Running w' /\
    List.length (w_log w') = (List.length (w_log w) + 6 * fuel)%nat /\
    w_fetches w' = (w_fetches w + fuel)%nat /\
    List.length (w_trace w') = (List.length (w_trace w) + 2 * fuel)%nat /\
    List.length (sleeps (w_trace w')) = (List.length (sleeps (w_trace w)) + fuel)%nat.
Proof.
  intros Hbus Hcfg. revert w. induction fuel as [|fuel IH]; intros w; cbn.
  - exists w. rewrite !Nat.add_0_r. repeat split; reflexivity.
  - destruct (Hcfg (w_fetches w)) as [f Hf]. rewrite Hf.
    destruct (ReadSensorData_healthy bus d
      (emit {| w_log := w_log w; w_trace := w_trace w; w_fetches := S (w_fetches w) |}
            (Sleep (sleep_duration f))) Hbus) as (out & new & Hr & Hlen).
    rewrite Hr.
    destruct (IH (emit {| w_log := w_log (emit {| w_log := w_log w; w_trace := w_trace w;
                                                  w_fetches := S (w_fetches w) |}
                                                (Sleep (sleep_duration f))) ++ new;
                          w_trace := w_trace (emit {| w_log := w_log w; w_trace := w_trace w;
                                                      w_fetches := S (w_fetches w) |}
                                                    (Sleep (sleep_duration f)));
                          w_fetches := w_fetches (emit {| w_log := w_log w; w_trace := w_trace w;
                                                          w_fetches := S (w_fetches w) |}
                                                        (Sleep (sleep_duration f))) |}
                       (LogReading out)))
      as (w' & Hl & Hlog & Hfe & Htr & Hsl).
    exists w'. split; [exact Hl|].
    cbn in Hlog, Hfe, Htr, Hsl.
    rewrite length_app in Hlog. rewrite !length_app in Htr.
    rewrite !sleeps_app in Hsl. rewrite !length_app in Hsl. cbn in Htr, Hsl.
    repeat split; lia.
Qed.

(** X7: with a bus that acknowledges every transaction and a configuration
    source that always answers, [n] ticks of the loop run to the end: each
    tick fetches the frequency once and issues exactly six bus transactions,
    and the trace grows by exactly one pair per tick, a sleep followed by a
    logged reading, where the [k]-th sleep is the duration computed from the
    [k]-th frequency fetched. *)
Theorem loop_healthy_ticks bus config fuel d w :
  (forall n t, exists x, bus n t = Ack x) ->
  (forall k, exists f, config k = Some f) ->
  exists w' ticks,
    loop bus config fuel (Some d) w = Running w' /\
    List.length (w_log w') = (List.length (w_log w) + 6 * fuel)%nat /\
    w_fetches w' = (w_fetches w + fuel)%nat /\
    List.length ticks = fuel /\
    map fst ticks =
      map (fun k => match config k with Some f => sleep_duration f | None => 0 end)
          (seq (w_fetches w) fuel) /\
    w_trace w' =
      w_trace w ++ flat_map (fun p => [Sleep (fst p); LogReading (snd p)]) ticks.
Proof.
  intros Hbus Hcfg. revert w. induction fuel as [|fuel IH]; intros w; cbn.
  - exists w, []. rewrite !Nat.add_0_r, app_nil_r. repeat split; reflexivity.
  - destruct (Hcfg (w_fetches w)) as [f Hf]. rewrite Hf.
    match goal with
    | |- context [ReadSensorData bus d ?w2] =>
        destruct (ReadSensorData_healthy bus d w2 Hbus) as (out & new & Hr & Hlen);
        rewrite Hr
    end.
    match goal with
    | |- context [loop bus config fuel (Some d) ?w3] =>
        destruct (IH w3) as (w' & ticks & Hl & Hlog & Hfe & Hn & Hd & Htr)
    end.
    exists w', ((sleep_duration f, out) :: ticks).
    cbn in Hlog, Hfe, Hd, Htr. rewrite length_app in Hlog.
    split; [exact Hl|]. split; [lia|]. split; [lia|].
    split; [cbn; lia|]. split.
    + cbn. rewrite ?Hf, Hd. reflexivity.
    + rewrite Htr. cbn. rewrite <- !app_assoc. reflexivity.
Qed.

Lemma loop_healthy_ticks_witness :
  (forall n t, exists x, (fun (_ : nat) (_ : Tx) => Ack [0x01; 0x2C]) n t = Ack x) /\
  (forall k, exists f, cfg5 k = Some f) /\
  exists w' ticks,
    loop (fun _ _ => Ack [0x01; 0x2C]) cfg5 3 (Some ina0) w0 = Running w' /\
    List.length (w_log w') = (List.length (w_log w0) + 6 * 3)%nat /\
    w_fetches w' = (w_fetches w0 + 3)%nat /\
    List.length ticks = 3%nat /\
    map fst ticks =
      map (fun k => match cfg5 k with Some f => sleep_duration f | None => 0 end)
          (seq (w_fetches w0) 3) /\
    w_trace w' =
      w_trace w0 ++ flat_map (fun p => [Sleep (fst p); LogReading (snd p)]) ticks.
Proof.
  assert (H1 : forall n t, exists x, (fun (_ : nat) (_ : Tx) => Ack [0x01; 0x2C]) n t = Ack x)
    by (intros; eexists; reflexivity).
  assert (H2 : forall k, exists f, cfg5 k = Some f) by (intros; eexists; reflexivity).
  exact (conj H1 (conj H2 (loop_healthy_ticks _ _ 3 ina0 w0 H1 H2))).
Defined.

Lemma loop_only_sensor_reads_aux bus config fuel ina w :
  exists new,
    w_log (outcome_world (loop bus config fuel ina w)) = w_log w ++ new /\
    match ina with
    | None => new = []
    | Some d => Forall (fun p => In (fst p) (sensor_txs d)) new
    end.
Proof.
  revert w. induction fuel as [|fuel IH]; intros w; cbn.
  - exists []. rewrite app_nil_r. split; [reflexivity|]. destruct ina; auto.
  - destruct (config (w_fetches w)) as [f|]; cbn.
    2: { exists []. rewrite app_nil_r. split; [reflexivity|]. destruct ina; auto. }
    destruct ina as [d|]; cbn.
    2: { exists []. rewrite app_nil_r. split; reflexivity. }
    destruct (ReadSensorData_only_sensor_txs bus d
      (emit {| w_log := w_log w; w_trace := w_trace w; w_fetches := S (w_fetches w) |}
            (Sleep (sleep_duration f)))) as (new1 & Hn1 & Hf1).
    destruct (ReadSensorData bus d _) as [[data|e] w3]; cbn in Hn1 |- *.
    + destruct (IH (emit w3 (LogReading data))) as (new2 & Hn2 & Hf2).
      exists (new1 ++ new2). rewrite Hn2. cbn. rewrite Hn1, <- app_assoc.
      split; [reflexivity|]. apply Forall_app. split; assumption.
    + exists new1. split; assumption.
Qed.

(** X8: with a bus that acknowledges every transaction and a configuration
    source that always answers, [run] initializes the sensor with its two
    register writes and then runs [n] full ticks of six transactions and one
    frequency fetch each. *)
Theorem run_healthy bus config fuel w :
  (forall n t, exists x, bus n t = Ack x) ->
  (forall k, exists f, config k = Some f) ->
  exists a b rest w',
    run bus config true true fuel w = Running w' /\
    w_log w' = w_log w ++ [(config_write_tx, Ack a); (cal_write_tx, Ack b)] ++ rest /\
    List.length rest = (6 * fuel)%nat /\
    w_fetches w' = (w_fetches w + fuel)%nat.
Proof.
  intros Hbus Hcfg. unfold run. cbn [negb]. rewrite NewINA226_unfold. cbv zeta.
  destruct (Hbus (List.length (w_log w)) config_write_tx) as [a Ha]. rewrite Ha.
  destruct (Hbus (S (List.length (w_log w))) cal_write_tx) as [b Hb]. rewrite Hb.
  destruct (loop_healthy bus config fuel (mkINA226 (mkDev ina226Address))
              (mkWorld (w_log w ++ [(config_write_tx, Ack a); (cal_write_tx, Ack b)])
                       (w_trace w) (w_fetches w)) Hbus Hcfg)
    as (w' & Hl & Hlog & Hfe & _ & _).
  cbn in Hlog, Hfe.
  exists a, b, (skipn (List.length (w_log w) + 2) (w_log w')), w'.
  split; [exact Hl|]. split; [|split; [|exact Hfe]].
  - assert (Hpre : exists rest, w_log w' =
              (w_log w ++ [(config_write_tx, Ack a); (cal_write_tx, Ack b)]) ++ rest).
    { destruct (loop_only_sensor_reads_aux bus config fuel
                  (Some (mkINA226 (mkDev ina226Address)))
                  (mkWorld (w_log w ++ [(config_write_tx, Ack a); (cal_write_tx, Ack b)])
                           (w_trace w) (w_fetches w))) as (new & Hn & _).
      rewrite Hl in Hn. cbn in Hn. exists new. exact Hn. }
    destruct Hpre as [rest Hrest]. rewrite Hrest.
    replace (List.length (w_log w) + 2)%nat
      with (List.length (w_log w ++ [(config_write_tx, Ack a); (cal_write_tx, Ack b)]))
      by (rewrite length_app; reflexivity).
    rewrite skipn_app, skipn_all, Nat.sub_diag. cbn. rewrite <- app_assoc. reflexivity.
  - rewrite length_skipn. rewrite length_app in Hlog. cbn in Hlog. lia.
Qed.

Lemma run_healthy_witness :
  (forall n t, exists x, (fun (_ : nat) (_ : Tx) => Ack [0x01; 0x2C]) n t = Ack x) /\
  (forall k, exists f, cfg5 k = Some f) /\
  exists a b rest w',
    run (fun _ _ => Ack [0x01; 0x2C]) cfg5 true true 2 w0 = Running w' /\
    w_log w' = w_log w0 ++ [(config_write_tx, Ack a); (cal_write_tx, Ack b)] ++ rest /\
    List.length rest = (6 * 2)%nat /\
    w_fetches w' = (w_fetches w0 + 2)%nat.
Proof.
  assert (H1 : forall n t, exists x, (fun (_ : nat) (_ : Tx) => Ack [0x01; 0x2C]) n t = Ack x)
    by (intros; eexists; reflexivity).
  assert (H2 : forall k, exists f, cfg5 k = Some f) by (intros; eexists; reflexivity).
  exact (conj H1 (conj H2 (run_healthy _ _ 2 w0 H1 H2))).
Defined.

(** X9: the polling loop never writes a register: every bus transaction it
    issues is an address select of the bus-voltage, current or power
    register or a 2-byte read, and with the nil driver it issues none. *)
Theorem loop_only_sensor_reads bus config fuel ina w :
  exists new,
    w_log (outcome_world (loop bus config fuel ina w)) = w_log w ++ new /\
    match ina with
    | None => new = []
    | Some d => Forall (fun p => In (fst p) (sensor_txs d)) new
    end.
Proof. exact (loop_only_sensor_reads_aux bus config fuel ina w). Qed.

Lemma Qfloor_unit (x : Q) : (0 <= x)%Q -> (x < 1)%Q -> Qfloor x = 0.
Proof.
  intros H0 H1.
  pose proof (Qfloor_le x) as Hle. pose proof (Qlt_floor x) as Hlt.
  assert (Ha : (inject_Z (Qfloor x) < inject_Z 1)%Q) by (apply Qle_lt_trans with x; [exact Hle|exact H1]).
  assert (Hb : (inject_Z 0 < inject_Z (Qfloor x + 1))%Q).
  { apply Qle_lt_trans with x; [exact H0|exact Hlt]. }
  rewrite <- Zlt_Qlt in Ha, Hb. lia.
Qed.

Lemma trunc_Q_small (f : Q) : (-1 < f)%Q -> (f < 1)%Q -> trunc_Q f = 0.
Proof.
  intros Hlo Hhi. unfold trunc_Q.
  destruct (Qle_bool 0 f) eqn:E.
  - apply Qle_bool_iff in E. apply Qfloor_unit; assumption.
  - assert (Hneg : (f < 0)%Q).
    { apply Qnot_le_lt. intros Hc. apply Qle_bool_iff in Hc. congruence. }
    rewrite Qfloor_unit; [reflexivity| |].
    + exact (Qopp_le_compat f 0 (Qlt_le_weak _ _ Hneg)).
    + exact (Qopp_lt_compat (-1) f Hlo).
Qed.

(** X10: in the part_000 variant of the loop, a frequency strictly between
    -1 and 1 (such as 0.5 updates per second) truncates to a zero
    [time.Duration] divisor, so the tick panics before it sleeps, fetches or
    touches the bus. *)
Theorem loop_part000_fractional_frequency_panics bus config_go fuel f ina w :
  (-1 < f)%Q -> (f < 1)%Q ->
  loop_part000 bus config_go (S fuel) f ina w = Panicked w.
Proof.
  intros Hlo Hhi. cbn. unfold sleep_ns_part000.
  unfold to_duration. rewrite (trunc_Q_small f Hlo Hhi). reflexivity.
Qed.

Lemma loop_part000_fractional_frequency_panics_witness :
  (-1 < 1 # 2)%Q /\ (1 # 2 < 1)%Q /\
  loop_part000 (fun _ _ => Ack []) (fun _ => (5 # 1, false)) 4 (1 # 2) (Some ina0) w0 = Panicked w0.
Proof.
  assert (H1 : (-1 < 1 # 2)%Q) by reflexivity.
  assert (H2 : (1 # 2 < 1)%Q) by reflexivity.
  exact (conj H1 (conj H2 (loop_part000_fractional_frequency_panics _ _ 3 _ _ _ H1 H2))).
Defined.

(** X11: in the part_000 variant, when the configuration source answers
    without error, the loop never reaches the sensor: it issues no bus
    transaction, and a tick never completes (it returns "unable to read
    configuration" or panics). *)
Theorem loop_part000_working_config_never_samples bus config_go fuel f ina w :
  (forall k, snd (config_go k) = false) ->
  w_log (outcome_world (loop_part000 bus config_go fuel f ina w)) = w_log w /\
  (forall w', loop_part000 bus config_go (S fuel) f ina w <> Running w').
Proof.
  intros Hcfg.
  assert (Hstep : forall fuel', exists e w',
             loop_part000 bus config_go (S fuel') f ina w = Returned e w' /\ w_log w' = w_log w
             \/ loop_part000 bus config_go (S fuel') f ina w = Panicked w /\ e = ConfigError
                /\ w' = w).
  { intros fuel'. cbn. destruct (sleep_ns_part000 f) as [ns|].
    - unfold GetFloat_go. cbn.
      pose proof (Hcfg (w_fetches w)) as Hf.
      destruct (config_go (w_fetches w)) as [uf failed]. cbn in Hf. subst failed. cbn.
      do 2 eexists. left. split; reflexivity.
    - exists ConfigError, w. right. auto. }
  split.
  - destruct fuel as [|fuel]; [reflexivity|].
    destruct (Hstep fuel) as (e & w' & [[-> Hw]|(-> & _ & _)]); [exact Hw|reflexivity].
  - intros w'. destruct (Hstep fuel) as (e & w'' & [[-> _]|(-> & _ & _)]); discriminate.
Qed.

Lemma loop_part000_working_config_never_samples_witness :
  (forall k, snd ((fun _ : nat => (5 # 1, false)) k) = false) /\
  w_log (outcome_world (loop_part000 (fun _ _ => Ack []) (fun _ => (5 # 1, false)) 3 (5 # 1)
                          (Some ina0) w0)) = w_log w0 /\
  (forall w', loop_part000 (fun _ _ => Ack []) (fun _ => (5 # 1, false)) 4 (5 # 1)
                (Some ina0) w0 <> Running w').
Proof.
  assert (H : forall k, snd ((fun _ : nat => (5 # 1, false)) k) = false) by reflexivity.
  exact (conj H (loop_part000_working_config_never_samples (fun _ _ => Ack []) _ 3 (5 # 1) (Some ina0) w0 H)).
Defined.
